(** * Forskoleappen: hour coverage of attendance records

    A shallow embedding of [forskoleappen.py]: the record loaders
    ([read_local_data], [read_from_db]) and the data-shaping part of
    [prep_and_visualize] (weekday derivation, row filter, timestamp
    formatting, expansion of every interval into the hours it spans, and the
    per-hour counts handed to the chart).

    Conventions.
    - A data frame is the list of its rows; a row is a record whose fields
      are the frame's columns.  The column names [Schedule-in], [Check-in],
      ... are written with an underscore.
    - The time cells are modelled by their text (the value compared with
      ['-'] and passed through [astype(str)]); [FreeTime] and [Absent] are
      integers; the [Date] cell is a [datetime64] value at midnight, held as
      the number of days since 1970-01-01.
    - Python integers used as hours are [Z]; counts of a [Counter] are [nat].
    - Python exceptions are the [Raise] results of the [result] monad.
    - [pandas.to_datetime], the file system and the database are outside
      the program: the first is a section variable, the other two are the
      fields of a [World].
    - The duration columns ([actual], [planned]) and the chart
      (lines 127-156 of the source) are not modelled: the model of
      [prep_and_visualize] returns the two sorted hour/count lists
      ([checkcount], [plancount]) that the chart is drawn from.
    - Of the chart, only the data handed to [plt.bar] is followed further
      ([bar_data], lines 136-139): the two lists taken apart into hours and
      counts and the smallest gap between two counted hours.  The means and
      sums of lines 127-131 are computed and never used, and the drawing
      itself has no model. *)

From Stdlib Require Import Ascii.
From stdpp Require Import base tactics option list list_numbers sorting
  strings fin_maps gmap.

Open Scope Z_scope.

(** ** Exceptions and the result monad *)

Inductive exn : Type :=
  | TypeError
  | NameError
  | ValueError
  | Error (msg : string).

Inductive result (A : Type) : Type :=
  | Ok (a : A)
  | Raise (e : exn).
Arguments Ok {A} a.
Arguments Raise {A} e.

#[global] Instance result_ret : MRet result := λ A a, Ok a.
#[global] Instance result_bind : MBind result := λ A B f m,
  match m with
  | Ok a => f a
  | Raise e => Raise e
  end.

Definition is_Ok {A} (m : result A) : Prop := ∃ a, m = Ok a.

(** ** Data model *)

(** One row of the loaded frame, in the column order of [colnames]. *)
Record Row : Type := mkRow {
  SchoolId : Z;
  WorkGroupId : Z;
  Date : Z;
  ChildId : Z;
  ChildFirstName : string;
  Schedule_in : string;
  Schedule_out : string;
  Check_in : string;
  Check_out : string;
  FreeTime : Z;
  Absent : Z
}.

(** A row once [df['Weekday']] has been added (line 84). *)
Record DayRow : Type := mkDayRow {
  rec :> Row;
  Weekday : string
}.

Record Timestamp : Type := mkTimestamp {
  year : Z;
  month : Z;
  day : Z;
  hour : Z;
  minute : Z;
  second : Z
}.

(** A row of [fdf] once the four time columns have been overwritten with
    timestamps (lines 97-100). *)
Record FRow : Type := mkFRow {
  origin : DayRow;
  Check_in_dt : Timestamp;
  Check_out_dt : Timestamp;
  Schedule_in_dt : Timestamp;
  Schedule_out_dt : Timestamp
}.

(** ** Interval expansion (lines 109-117) *)

(** Python's [range(start, stop)] as a list. *)
Definition range (start stop : Z) : list Z := seqZ start (stop - start).

(** [pd.PeriodIndex(data=..., freq='H').hour.tolist()]. *)
Definition PeriodIndex_hour (data : list Timestamp) : list Z := hour <$> data.

(** The two statements of the loop body, for a start and an end timestamp:
    the list of the two hours, then every hour between them. *)
Definition hours_between (t_in t_out : Timestamp) : list Z :=
  let hs := PeriodIndex_hour [t_in; t_out] in
  range (hs !!! 0%nat) (hs !!! 1%nat + 1).

Definition chours (row : FRow) : list Z :=
  hours_between (Check_in_dt row) (Check_out_dt row).

Definition phours (row : FRow) : list Z :=
  hours_between (Schedule_in_dt row) (Schedule_out_dt row).

Definition tchours (fdf : list FRow) : list (list Z) := chours <$> fdf.
Definition tphours (fdf : list FRow) : list (list Z) := phours <$> fdf.

(** ** Hour aggregation (lines 119-125) *)

(** [[item for sublist in t for item in sublist]]. *)
Definition flat_list (t : list (list Z)) : list Z := mjoin t.

(** [collections.Counter(l)]: a dictionary from the elements of [l] to the
    number of times they occur, built by [c[x] = c.get(x, 0) + 1] for every
    element in turn; an element that does not occur has no key.
    The insertion order of the dictionary is not kept: the only use of the
    counter is [sorted(... .items())]. *)
Definition Counter_update (c : gmap Z nat) (x : Z) : gmap Z nat :=
  <[x := S (default 0%nat (c !! x))]> c.

Definition Counter (l : list Z) : gmap Z nat := foldl Counter_update ∅ l.

Definition items (c : gmap Z nat) : list (Z * nat) := map_to_list c.

(** The order of Python tuples [(hour, count)]: lexicographic. *)
Definition tuple_le (p q : Z * nat) : Prop :=
  p.1 < q.1 ∨ (p.1 = q.1 ∧ (p.2 ≤ q.2)%nat).

#[global] Instance tuple_le_dec p q : Decision (tuple_le p q).
Proof. unfold tuple_le. apply _. Defined.

Definition sorted (l : list (Z * nat)) : list (Z * nat) := merge_sort tuple_le l.

Definition hour_count (t : list (list Z)) : list (Z * nat) :=
  sorted (items (Counter (flat_list t))).

Definition checkcount (fdf : list FRow) : list (Z * nat) := hour_count (tchours fdf).
Definition plancount (fdf : list FRow) : list (Z * nat) := hour_count (tphours fdf).

(** ** Weekday, selection of days and row filter (lines 84-95) *)

Definition day_names : list string :=
  ["Monday"; "Tuesday"; "Wednesday"; "Thursday"; "Friday"; "Saturday"; "Sunday"].

(** [Series.dt.day_name()] on a date held as days since 1970-01-01
    (a Thursday). *)
Definition day_name (d : Z) : string :=
  day_names !!! Z.to_nat ((d + 3) `mod` 7).

(** [df['Weekday'] = df['Date'].dt.day_name()], on a [Date] column that is
    a [datetime64] column.  When the loaded column is not one (a sheet with
    no data row, a date that [datetime64[ns]] cannot hold, see
    [datetime64_day]) the source raises [AttributeError] at this line; that
    path has no model here, and the properties that say that something is
    returned carry the condition on the frame as a hypothesis. *)
Definition add_Weekday (df : list Row) : list DayRow :=
  (λ r, mkDayRow r (day_name (Date r))) <$> df.

(** The days of interest chosen from the [days] argument (lines 86-89). *)
Definition doi (days : string) : list string :=
  if bool_decide (days = "All")
  then ["Monday"; "Tuesday"; "Wednesday"; "Thursday"; "Friday"]
  else [days].

(** The boolean mask of lines 93-94, condition by condition. *)
Definition mask (doi : list string) (r : DayRow) : bool :=
  bool_decide (Check_in r ≠ "-") && bool_decide (FreeTime r = 0)
  && bool_decide (Schedule_in r ≠ "-") && bool_decide (Schedule_out r ≠ "-")
  && bool_decide (Check_out r ≠ "-") && bool_decide (Weekday r ∈ doi).

(** [df[mask].copy()]. *)
Definition row_filter (doi : list string) (df : list DayRow) : list DayRow :=
  filter (λ r, mask doi r) df.

(** ** Text of a date *)

(** Year, month and day of a day number (proleptic Gregorian calendar). *)
Definition civil_from_days (d : Z) : Z * Z * Z :=
  let z := d + 719468 in
  let era := z `div` 146097 in
  let doe := z - era * 146097 in
  let yoe := (doe - doe `div` 1460 + doe `div` 36524 - doe `div` 146096) `div` 365 in
  let doy := doe - (365 * yoe + yoe `div` 4 - yoe `div` 100) in
  let mp := (5 * doy + 2) `div` 153 in
  let dd := doy - (153 * mp + 2) `div` 5 + 1 in
  let mm := if bool_decide (mp < 10) then mp + 3 else mp - 9 in
  let yy := yoe + era * 400 + (if bool_decide (mm ≤ 2) then 1 else 0) in
  (yy, mm, dd).

Definition digit (n : Z) : string :=
  String (Ascii.ascii_of_nat (48 + Z.to_nat (n `mod` 10))) "".
Definition digits2 (n : Z) : string := digit (n `div` 10) +:+ digit n.
Definition digits4 (n : Z) : string := digits2 (n `div` 100) +:+ digits2 n.

(** [astype(str)] on a [Date] cell: [YYYY-MM-DD] (years 0 to 9999). *)
Definition date_str (d : Z) : string :=
  let '(y, m, dd) := civil_from_days d in
  digits4 y +:+ "-" +:+ digits2 m +:+ "-" +:+ digits2 dd.

(** ** The world outside the program *)

Record World : Type := mkWorld {
  (** [glob.glob(pattern)] *)
  glob : string → list string;
  (** [pd.read_excel(filename, index_col=None, header=2, names=colnames)] *)
  read_excel : string → result (list Row);
  (** [pyodbc.connect(connection_string)] *)
  pyodbc_connect : string → result ();
  (** [read_sql(query, sql_conn)] *)
  read_sql : string → result (list Row)
}.

(** ** Record loaders *)

(** [pd.concat(frames, axis=0, ignore_index=True)]: pandas raises
    [ValueError] ("No objects to concatenate") on an empty list. *)
Definition pd_concat (frames : list (list Row)) : result (list Row) :=
  match frames with
  | [] => Raise ValueError
  | _ => Ok (mjoin frames)
  end.

Definition read_local_data (w : World) (path : string) : result (list Row) :=
  let xls_path := path +:+ "*.xls" in
  let files := glob w xls_path in
  frames ← mapM (read_excel w) files;
  pd_concat frames.

(** The names bound at module level: the imports and the three functions. *)
Definition module_names : list string :=
  ["pd"; "np"; "scipy"; "dt"; "Counter"; "plt"; "pyodbc"; "glob";
   "read_local_data"; "read_from_db"; "prep_and_visualize"].

(** Evaluation of a global name: [NameError] when it is not bound. *)
Definition global_name (x : string) : result () :=
  if bool_decide (x ∈ module_names) then Ok () else Raise NameError.

Definition nl : string := String (Ascii.ascii_of_nat 10) "".

Definition connection_string : string :=
  "DRIVER={ODBC Driver 17 for SQL Server}; SERVER=??????;" +:+ nl +:+
  "    DATABASE=????????;   Trusted_Connection=yes".

(** The query text after [.format(school, date)]. *)
Definition query (school date : string) : string :=
  "SELECT 'SchoolId', 'WorkGroupId', 'Date', 'ChildId', 'ChildFirstName', 'Schedule-in'," +:+ nl +:+
  "               'Schedule-out', 'Check-in', 'Check-out', 'FreeTime', 'Absent'" +:+ nl +:+
  "               FROM table_with_attendance_data" +:+ nl +:+
  "               WHERE SchoolId= " +:+ school +:+ " AND Date >= " +:+ date +:+ nl +:+
  "    ".

(** [read_from_db(school, date)], applied to the list of the positional
    arguments of a call: both parameters are required, so a call with any
    other number of arguments raises [TypeError] before the body runs.  The
    body connects, builds the query and then evaluates [pandas.read_sql],
    where the module only binds [pd]. *)
Definition read_from_db (w : World) (args : list string) : result (list Row) :=
  match args with
  | [school; date] =>
      sql_conn ← pyodbc_connect w connection_string;
      let query := query school date in
      _ ← global_name "pandas";
      read_sql w query
  | _ => Raise TypeError
  end.

(** ** The pipeline *)

Section Pipeline.

(** [pd.to_datetime] on one string. *)
Variable to_datetime : string → result Timestamp.

(** [pd.to_datetime(fdf['Date'].astype(str) + ' ' + fdf[col].astype(str))]:
    the whole column is converted, in row order, each cell on its own.
    (pandas 2 takes one format for the column from its first cell, so that
    it may raise on a later cell that it reads on its own; no property below
    says that a conversion succeeds because each cell can be read.) *)
Definition to_datetime_col (col : DayRow → string) (fdf : list DayRow)
  : result (list Timestamp) :=
  mapM (λ r : DayRow, to_datetime (date_str (Date r) +:+ " " +:+ col r)) fdf.

(** The frame with the four converted columns put back. *)
Fixpoint assign (fdf : list DayRow) (ci co si so : list Timestamp) : list FRow :=
  match fdf, ci, co, si, so with
  | r :: fdf, a :: ci, b :: co, c :: si, d :: so =>
      mkFRow r a b c d :: assign fdf ci co si so
  | _, _, _, _, _ => []
  end.

(** Lines 97-100. *)
Definition format_dates (fdf : list DayRow) : result (list FRow) :=
  ci ← to_datetime_col Check_in fdf;
  co ← to_datetime_col Check_out fdf;
  si ← to_datetime_col Schedule_in fdf;
  so ← to_datetime_col Schedule_out fdf;
  mret (assign fdf ci co si so).

(** Lines 84-125, from the loaded frame to [(checkcount, plancount)].
    Two steps that can only raise are left out: the [AttributeError] of
    line 84 (see [add_Weekday]) and the subtractions of lines 102-103, which
    raise [TypeError] when one of the two columns is timezone-aware and the
    other is not.  So [prep] may return counts where the source raises; when
    the source returns, its counts are those of [prep]. *)
Definition prep (days : string) (df : list Row)
  : result (list (Z * nat) * list (Z * nat)) :=
  let df := add_Weekday df in
  let doi := doi days in
  fdf ← format_dates (row_filter doi df);
  mret (checkcount fdf, plancount fdf).

(** [prep_and_visualize(local_read, days)] up to the two hour/count lists.
    [read_local_data()] takes its default path, [read_from_db()] is called
    without arguments. *)
Definition prep_and_visualize (w : World) (local_read : bool) (days : string)
  : result (list (Z * nat) * list (Z * nat)) :=
  df ← (if local_read then read_local_data w "../" else read_from_db w []);
  prep days df.

End Pipeline.

(** ** The data of the bar chart (lines 136-139) *)

(** [a, b = zip] of the unpacked list of pairs [m]: the tuple of the first
    components and the tuple of the second ones.  For an empty [m] the call
    is [zip()], which yields nothing, and unpacking nothing into two names
    raises [ValueError]. *)
Definition unzip_pairs (m : list (Z * nat)) : result (list Z * list nat) :=
  match m with
  | [] => Raise ValueError
  | _ :: _ => Ok (m.*1, m.*2)
  end.

(** [np.diff(a)]: the differences [a[i+1] - a[i]]. *)
Fixpoint np_diff (a : list Z) : list Z :=
  match a with
  | x :: (y :: _) as a' => (y - x) :: np_diff a'
  | _ => []
  end.

(** [np.min(a)]: [ValueError] on an array of size zero. *)
Definition np_min (a : list Z) : result Z :=
  match a with
  | [] => Raise ValueError
  | x :: a' => Ok (foldl Z.min x a')
  end.

(** What lines 136-139 compute: the hours and counts of the two series and
    [np.min(np.diff(ah))]; the source's [width] is [min_gap] divided by 3, a
    float that is left out. *)
Record Bars : Type := mkBars {
  ah : list Z;
  noc : list nat;
  ph : list Z;
  nop : list nat;
  min_gap : Z
}.

Definition bar_data (checkcount plancount : list (Z * nat)) : result Bars :=
  '(ah, noc) ← unzip_pairs checkcount;
  '(ph, nop) ← unzip_pairs plancount;
  gap ← np_min (np_diff ah);
  mret (mkBars ah noc ph nop gap).

(** [prep_and_visualize] followed up to line 139. *)
Definition bars_of_run (to_datetime : string → result Timestamp)
    (w : World) (local_read : bool) (days : string) : result Bars :=
  '(checkcount, plancount) ← prep_and_visualize to_datetime w local_read days;
  bar_data checkcount plancount.

(** ** A parser for the examples *)

(** [s.split(c)] *)
Fixpoint split_on (c : Ascii.ascii) (s : string) : list string :=
  match s with
  | "" => [""]
  | String a s' =>
      if decide (a = c) then "" :: split_on c s'
      else match split_on c s' with
           | w :: ws => String a w :: ws
           | [] => [String a ""]
           end
  end.

Definition digit_val (a : Ascii.ascii) : option Z :=
  let n := Z.of_nat (Ascii.nat_of_ascii a) in
  if bool_decide (48 ≤ n ≤ 57) then Some (n - 48) else None.

Fixpoint number_from (acc : Z) (s : string) : option Z :=
  match s with
  | "" => Some acc
  | String a s' => d ← digit_val a; number_from (10 * acc + d) s'
  end.

Definition number (s : string) : option Z :=
  match s with
  | "" => None
  | _ => number_from 0 s
  end.

Definition timestamp_of (y m d h mi s : Z) : result Timestamp :=
  if bool_decide (1 ≤ m ≤ 12 ∧ 1 ≤ d ≤ 31 ∧ 0 ≤ h ≤ 23 ∧ 0 ≤ mi ≤ 59 ∧ 0 ≤ s ≤ 59)
  then Ok (mkTimestamp y m d h mi s)
  else Raise ValueError.

(** The instance of [to_datetime] used in the examples: it reads
    [YYYY-MM-DD HH:MM] and [YYYY-MM-DD HH:MM:SS] and raises [ValueError] on
    anything else.  [pd.to_datetime] reads more than that; a string this
    parser raises on stands, in an example, for a cell that [to_datetime]
    cannot read, and the theorems hold for every [to_datetime]. *)
Definition iso_to_datetime (s : string) : result Timestamp :=
  match split_on " "%char s with
  | [d; t] =>
      match number <$> split_on "-"%char d, number <$> split_on ":"%char t with
      | [Some y; Some m; Some dd], [Some h; Some mi] => timestamp_of y m dd h mi 0
      | [Some y; Some m; Some dd], [Some h; Some mi; Some s] => timestamp_of y m dd h mi s
      | _, _ => Raise ValueError
      end
  | _ => Raise ValueError
  end.

(** ** Example data *)

(** Monday 2024-01-01 and Tuesday 2024-01-02 as day numbers. *)
Definition monday : Z := 19723.
Definition tuesday : Z := 19724.

Definition child (date : Z) (s_in s_out c_in c_out : string) (free absent : Z) : Row :=
  mkRow 1 1 date 7 "Alva" s_in s_out c_in c_out free absent.

(** The two records of the end-to-end example: the same 08:00-16:00 day,
    once on a Monday and once on a Tuesday. *)
Definition two_days : list Row :=
  [child monday "08:00" "16:00" "08:00" "16:00" 0 0;
   child tuesday "08:00" "16:00" "08:00" "16:00" 0 0].

Definition stamp (h m : Z) : Timestamp := mkTimestamp 2024 1 1 h m 0.

(** A formatted row: checked in 08:30-11:15, scheduled 08:00-16:00. *)
Definition morning : FRow :=
  mkFRow (mkDayRow (child monday "08:00" "16:00" "08:30" "11:15" 0 0) "Monday")
    (stamp 8 30) (stamp 11 15) (stamp 8 0) (stamp 16 0).

(** The same day for a child marked absent. *)
Definition morning_absent : FRow :=
  mkFRow (mkDayRow (child monday "08:00" "16:00" "08:30" "11:15" 0 1) "Monday")
    (stamp 8 30) (stamp 11 15) (stamp 8 0) (stamp 16 0).

(** A formatted row whose check-out hour precedes its check-in hour. *)
Definition backwards : FRow :=
  mkFRow (mkDayRow (child monday "08:00" "16:00" "15:00" "09:00" 0 0) "Monday")
    (stamp 15 0) (stamp 9 0) (stamp 8 0) (stamp 16 0).

(** The Monday record of [two_days] once formatted. *)
Definition full_day : FRow :=
  mkFRow (mkDayRow (child monday "08:00" "16:00" "08:00" "16:00" 0 0) "Monday")
    (stamp 8 0) (stamp 16 0) (stamp 8 0) (stamp 16 0).

(** Rows the filter must drop: no check-in/out, and a free-time day. *)
Definition not_checked_in : Row := child monday "08:00" "16:00" "-" "-" 0 0.
Definition free_day : Row := child monday "08:00" "16:00" "08:10" "15:50" 1 0.

(** A present child and the same record marked absent. *)
Definition present : Row := child monday "08:00" "16:00" "08:30" "11:15" 0 0.
Definition marked_absent : Row := child monday "08:00" "16:00" "08:30" "11:15" 0 1.



(** A world with no spreadsheet and no database. *)
Definition empty_world : World :=
  mkWorld (λ _, []) (λ _, Raise (Error "no such file"))
    (λ _, Raise (Error "no server")) (λ _, Raise (Error "no connection")).

(** A formatted row: in and out within the hour from 9 to 10. *)
Definition short_visit : FRow :=
  mkFRow (mkDayRow (child monday "09:00" "09:45" "09:05" "09:40" 0 0) "Monday")
    (stamp 9 5) (stamp 9 40) (stamp 9 0) (stamp 9 45).

(** A world with one spreadsheet, holding the two records of [two_days]. *)
Definition one_file_world : World :=
  mkWorld (λ _, ["../week1.xls"]) (λ _, Ok two_days)
    (λ _, Raise (Error "no server")) (λ _, Raise (Error "no connection")).

(** Two worlds with the same two spreadsheets, listed in opposite orders. *)
Definition two_files (f : string) : result (list Row) :=
  if bool_decide (f = "../week1.xls") then Ok [present; free_day] else Ok two_days.

Definition two_file_world : World :=
  mkWorld (λ _, ["../week1.xls"; "../week2.xls"]) two_files
    (λ _, Raise (Error "no server")) (λ _, Raise (Error "no connection")).

Definition two_file_world_reversed : World :=
  mkWorld (λ _, ["../week2.xls"; "../week1.xls"]) two_files
    (λ _, Raise (Error "no server")) (λ _, Raise (Error "no connection")).

(** ** Vocabulary of the properties *)

(** [l] is the run of consecutive hours from [a] to [b], both included. *)
Definition consecutive_hours (a b : Z) (l : list Z) : Prop :=
  Z.of_nat (length l) = b - a + 1
  ∧ (∀ i : nat, (i < length l)%nat → l !! i = Some (a + Z.of_nat i))
  ∧ head l = Some a
  ∧ last l = Some b.

(** Number of occurrences of [h] in a list of hours. *)
Definition occurrences (h : Z) (l : list Z) : nat := length (filter (h =.) l).

(** Number of rows whose expanded interval contains the hour [h]. *)
Definition covering (hours : FRow → list Z) (fdf : list FRow) (h : Z) : nat :=
  length (filter (λ row, h ∈ hours row) fdf).

(** Sum of the counts of a list of [(hour, count)] pairs. *)
Definition total (m : list (Z * nat)) : nat := sum_list (m.*2).

(** Strictly increasing hours. *)
Definition by_hour (p q : Z * nat) : Prop := p.1 < q.1.

(** The reading "every hour of the day has an entry, 0 when no interval
    covers it". *)
Definition assigns_every_hour (cover : Z → nat) (m : list (Z * nat)) : Prop :=
  ∀ h, 0 ≤ h ≤ 23 → (h, cover h) ∈ m.



(** The four time cells of a row and the columns they are read by. *)
Definition time_columns : list (DayRow → string) :=
  [λ r : DayRow, Check_in r; λ r : DayRow, Check_out r;
   λ r : DayRow, Schedule_in r; λ r : DayRow, Schedule_out r].

(** A day number that a [datetime64[ns]] column can hold (1677-09-22 to
    2262-04-11): on such a column [.dt.day_name()] is defined. *)
Definition datetime64_day (d : Z) : Prop := -106751 ≤ d ≤ 106751.


(** Every count stored in a counter is positive. *)
Definition positive_counts (c : gmap Z nat) : Prop :=
  ∀ h n, c !! h = Some n → (0 < n)%nat.

(** The four hours of a formatted row are hours of the day, as every hour
    of a [PeriodIndex] is. *)
Definition hours_of_day (row : FRow) : Prop :=
  0 ≤ hour (Check_in_dt row) ≤ 23 ∧ 0 ≤ hour (Check_out_dt row) ≤ 23
  ∧ 0 ≤ hour (Schedule_in_dt row) ≤ 23 ∧ 0 ≤ hour (Schedule_out_dt row) ≤ 23.

(** The hours checked in lie within the hours scheduled. *)
Definition within_schedule (row : FRow) : Prop :=
  hour (Schedule_in_dt row) ≤ hour (Check_in_dt row)
  ∧ hour (Check_out_dt row) ≤ hour (Schedule_out_dt row).

(** A filtered row and its formatted row: same row, and the four
    timestamps are those read from its date and time cells. *)
Definition formats (to_datetime : string → result Timestamp)
    (r : DayRow) (row : FRow) : Prop :=
  origin row = r
  ∧ to_datetime (date_str (Date r) +:+ " " +:+ Check_in r) = Ok (Check_in_dt row)
  ∧ to_datetime (date_str (Date r) +:+ " " +:+ Check_out r) = Ok (Check_out_dt row)
  ∧ to_datetime (date_str (Date r) +:+ " " +:+ Schedule_in r) = Ok (Schedule_in_dt row)
  ∧ to_datetime (date_str (Date r) +:+ " " +:+ Schedule_out r) = Ok (Schedule_out_dt row).

(** * Properties *)

(** ** Interval expander *)

Lemma range_length a b : length (range a b) = Z.to_nat (b - a).
Proof. apply length_seqZ. Qed.

Lemma elem_of_range a b k : k ∈ range a b ↔ a ≤ k < b.
Proof. unfold range. rewrite elem_of_seqZ. lia. Qed.

Lemma NoDup_range a b : NoDup (range a b).
Proof. apply NoDup_seqZ. Qed.

Lemma hours_between_range t_in t_out :
  hours_between t_in t_out = range (hour t_in) (hour t_out + 1).
Proof. reflexivity. Qed.

Lemma hours_between_consecutive t_in t_out :
  hour t_in ≤ hour t_out →
  consecutive_hours (hour t_in) (hour t_out) (hours_between t_in t_out).
Proof.
  intros Hle. rewrite hours_between_range. unfold consecutive_hours, range.
  rewrite length_seqZ. split; [lia|]. split.
  - intros i Hi. apply lookup_seqZ_lt. lia.
  - split.
    + rewrite seqZ_cons by lia. reflexivity.
    + replace (hour t_out + 1 - hour t_in)
        with (Z.of_nat (S (Z.to_nat (hour t_out - hour t_in)))) by lia.
      rewrite seqZ_S, last_snoc. f_equal. lia.
Qed.

Lemma hours_between_empty t_in t_out :
  hour t_out < hour t_in → hours_between t_in t_out = [].
Proof. intros Hlt. rewrite hours_between_range. apply seqZ_nil. lia. Qed.

Example expand_0830_1115 : hours_between (stamp 8 30) (stamp 11 15) = [8; 9; 10; 11].
Proof. reflexivity. Qed.

Example expand_0815_1045 : hours_between (stamp 8 15) (stamp 10 45) = [8; 9; 10].
Proof. reflexivity. Qed.

(** C1. In the loop over the filtered records, the entry of [tchours]
    (resp. [tphours]) for a record is the expansion of its check-in/out
    (resp. schedule-in/out) interval, and whenever the start hour is at most
    the end hour that expansion consists of exactly
    [end_hour - start_hour + 1] consecutive integers, the first being the
    start hour and the last the end hour. *)
Theorem interval_expander (fdf : list FRow) (i : nat) (row : FRow) :
  fdf !! i = Some row →
  tchours fdf !! i = Some (chours row)
  ∧ tphours fdf !! i = Some (phours row)
  ∧ (hour (Check_in_dt row) ≤ hour (Check_out_dt row) →
     consecutive_hours (hour (Check_in_dt row)) (hour (Check_out_dt row)) (chours row))
  ∧ (hour (Schedule_in_dt row) ≤ hour (Schedule_out_dt row) →
     consecutive_hours (hour (Schedule_in_dt row)) (hour (Schedule_out_dt row)) (phours row)).
Proof.
  intros Hrow. unfold tchours, tphours. rewrite !list_lookup_fmap, Hrow.
  split; [reflexivity|]. split; [reflexivity|].
  split; apply hours_between_consecutive.
Qed.

Lemma interval_expander_witness :
  [morning; backwards] !! 0%nat = Some morning
  ∧ consecutive_hours 8 11 (chours morning)
  ∧ chours morning = [8; 9; 10; 11]
  ∧ consecutive_hours 8 16 (phours morning).
Proof.
  destruct (interval_expander [morning; backwards] 0 morning eq_refl)
    as (_ & _ & Hc & Hp).
  split; [reflexivity|]. split; [apply Hc; simpl; lia|].
  split; [reflexivity|]. apply Hp. simpl. lia.
Defined.

(** ** Hour aggregator *)

Section Aggregator.

Implicit Types (c : gmap Z nat) (l : list Z) (m : list (Z * nat)) (h x : Z).

Lemma Counter_update_lookup c x h :
  default 0%nat (Counter_update c x !! h)
  = (default 0%nat (c !! h) + (if decide (h = x) then 1 else 0))%nat.
Proof.
  unfold Counter_update. destruct (decide (h = x)) as [->|Hne].
  - rewrite lookup_insert_eq. simpl. lia.
  - rewrite lookup_insert_ne by done. lia.
Qed.

Lemma Counter_update_positive c x :
  positive_counts c → positive_counts (Counter_update c x).
Proof.
  intros Hc h n. unfold Counter_update.
  destruct (decide (x = h)) as [->|Hne].
  - rewrite lookup_insert_eq. intros [= <-]. lia.
  - rewrite lookup_insert_ne by done. apply Hc.
Qed.

Lemma occurrences_cons h x l :
  occurrences h (x :: l)
  = ((if decide (h = x) then 1 else 0) + occurrences h l)%nat.
Proof.
  unfold occurrences. rewrite filter_cons.
  destruct (decide (h = x)); reflexivity.
Qed.

Lemma occurrences_app h l1 l2 :
  occurrences h (l1 ++ l2) = (occurrences h l1 + occurrences h l2)%nat.
Proof. unfold occurrences. by rewrite filter_app, length_app. Qed.

Lemma foldl_Counter_update_lookup l c h :
  default 0%nat (foldl Counter_update c l !! h)
  = (default 0%nat (c !! h) + occurrences h l)%nat.
Proof.
  revert c. induction l as [|x l IH]; intros c; simpl.
  - unfold occurrences. simpl. lia.
  - rewrite IH, Counter_update_lookup, occurrences_cons. lia.
Qed.

Lemma foldl_Counter_update_positive l c :
  positive_counts c → positive_counts (foldl Counter_update c l).
Proof.
  revert c. induction l as [|x l IH]; intros c Hc; simpl; [done|].
  apply IH, Counter_update_positive, Hc.
Qed.

Lemma Counter_positive l : positive_counts (Counter l).
Proof.
  apply foldl_Counter_update_positive. intros h n. by rewrite lookup_empty.
Qed.

(** A counter holds, for the elements that occur, how often they occur. *)
Lemma Counter_lookup l h n :
  Counter l !! h = Some n ↔ n = occurrences h l ∧ (0 < n)%nat.
Proof.
  pose proof (foldl_Counter_update_lookup l ∅ h) as Hget.
  rewrite lookup_empty in Hget. simpl in Hget. fold (Counter l) in Hget.
  split.
  - intros Hn. split; [|by eapply Counter_positive].
    rewrite Hn in Hget. simpl in Hget. lia.
  - intros [-> Hpos]. destruct (Counter l !! h) as [k|]; simpl in Hget.
    + by rewrite Hget.
    + lia.
Qed.

Lemma total_Counter_update c x :
  total (items (Counter_update c x)) = S (total (items c)).
Proof.
  unfold total, items, Counter_update. destruct (c !! x) as [n|] eqn:Hx; simpl.
  - rewrite <-insert_delete_eq.
    rewrite map_to_list_insert by apply lookup_delete_eq.
    rewrite <-(map_to_list_delete c x n Hx). csimpl. lia.
  - rewrite map_to_list_insert by done. csimpl. lia.
Qed.

Lemma total_foldl_Counter_update l c :
  total (items (foldl Counter_update c l)) = (total (items c) + length l)%nat.
Proof.
  revert c. induction l as [|x l IH]; intros c; simpl; [lia|].
  rewrite IH, total_Counter_update. lia.
Qed.

Lemma total_sorted m : total (sorted m) = total m.
Proof. unfold total, sorted. by rewrite merge_sort_Permutation. Qed.

Lemma total_hour_count (t : list (list Z)) :
  total (hour_count t) = sum_list (length <$> t).
Proof.
  unfold hour_count, Counter, flat_list.
  rewrite total_sorted, total_foldl_Counter_update, length_join.
  unfold total, items. rewrite map_to_list_empty. reflexivity.
Qed.

Lemma sum_list_length_fmap {A} (f : A → list Z) (rows : list A) :
  sum_list (length <$> (f <$> rows)) = sum_list_with (λ r, length (f r)) rows.
Proof. induction rows as [|r rows IH]; csimpl; [done|]. by rewrite IH. Qed.

Lemma occurrences_NoDup h l :
  NoDup l → occurrences h l = if decide (h ∈ l) then 1%nat else 0%nat.
Proof.
  induction 1 as [|x l Hx Hl IH].
  - rewrite decide_False by apply not_elem_of_nil. reflexivity.
  - rewrite occurrences_cons, IH. destruct (decide (h = x)) as [->|Hne].
    + rewrite (decide_False (P := x ∈ l)) by done.
      rewrite decide_True by apply list_elem_of_here. reflexivity.
    + destruct (decide (h ∈ l)) as [Hin|Hin].
      * rewrite decide_True by (by apply list_elem_of_further). reflexivity.
      * rewrite decide_False; [reflexivity|].
        rewrite elem_of_cons. by intros [?|?].
Qed.

(** Flattening the per-row hour lists and counting an hour is counting the
    rows whose list contains it, as no list repeats an hour. *)
Lemma occurrences_flat_list (hours : FRow → list Z) (fdf : list FRow) h :
  (∀ row, NoDup (hours row)) →
  occurrences h (flat_list (hours <$> fdf)) = covering hours fdf h.
Proof.
  intros Hnd. unfold flat_list, covering.
  induction fdf as [|row fdf IH]; csimpl; [done|].
  rewrite occurrences_app, IH, occurrences_NoDup by apply Hnd.
  rewrite filter_cons. destruct (decide (h ∈ hours row)); reflexivity.
Qed.

Lemma elem_of_hour_count (t : list (list Z)) h n :
  (h, n) ∈ hour_count t ↔ n = occurrences h (flat_list t) ∧ (0 < n)%nat.
Proof.
  unfold hour_count, sorted, items.
  rewrite merge_sort_Permutation, elem_of_map_to_list. apply Counter_lookup.
Qed.

#[local] Instance tuple_le_total : Total tuple_le.
Proof. intros [a n] [b k]. unfold tuple_le. simpl. lia. Qed.

#[local] Instance tuple_le_trans : Transitive tuple_le.
Proof. intros [a n] [b k] [c j]. unfold tuple_le. simpl. lia. Qed.

Lemma StronglySorted_by_hour m :
  NoDup (m.*1) → StronglySorted tuple_le m → StronglySorted by_hour m.
Proof.
  intros Hnd Hs. induction Hs as [|p m Hs IH Hp]; [constructor|].
  csimpl in Hnd. apply NoDup_cons in Hnd as [Hp1 Hnd].
  constructor; [by apply IH|].
  rewrite Forall_forall in Hp |- *. intros q Hq.
  destruct (Hp q Hq) as [Hlt|[Heq _]]; [exact Hlt|].
  exfalso. apply Hp1. rewrite Heq. by apply list_elem_of_fmap_2.
Qed.

Lemma hour_count_sorted (t : list (list Z)) :
  StronglySorted by_hour (hour_count t).
Proof.
  unfold hour_count, sorted, items. apply StronglySorted_by_hour.
  - rewrite merge_sort_Permutation. apply NoDup_fst_map_to_list.
  - apply StronglySorted_merge_sort; apply _.
Qed.

Lemma NoDup_hours_between t_in t_out : NoDup (hours_between t_in t_out).
Proof. apply NoDup_range. Qed.

End Aggregator.

(** C2. The counts of [checkcount] add up to the sum, over the filtered
    records, of the lengths of their expanded check-in/out hour lists, and
    the counts of [plancount] add up to the same sum for the expanded
    schedule-in/out hour lists. *)
Theorem hour_counts_total (fdf : list FRow) :
  total (checkcount fdf) = sum_list_with (λ row, length (chours row)) fdf
  ∧ total (plancount fdf) = sum_list_with (λ row, length (phours row)) fdf.
Proof.
  unfold checkcount, plancount, tchours, tphours.
  rewrite !total_hour_count, !sum_list_length_fmap. done.
Qed.

Lemma elem_of_checkcount (fdf : list FRow) (h : Z) (n : nat) :
  (h, n) ∈ checkcount fdf ↔ n = covering chours fdf h ∧ (0 < n)%nat.
Proof.
  unfold checkcount, tchours.
  rewrite elem_of_hour_count, occurrences_flat_list; [done|].
  intros row. apply NoDup_hours_between.
Qed.

Lemma elem_of_plancount (fdf : list FRow) (h : Z) (n : nat) :
  (h, n) ∈ plancount fdf ↔ n = covering phours fdf h ∧ (0 < n)%nat.
Proof.
  unfold plancount, tphours.
  rewrite elem_of_hour_count, occurrences_flat_list; [done|].
  intros row. apply NoDup_hours_between.
Qed.

Lemma covering_positive (hours : FRow → list Z) (fdf : list FRow) (row : FRow) (h : Z) :
  row ∈ fdf → h ∈ hours row → (0 < covering hours fdf h)%nat.
Proof.
  intros Hrow Hh. unfold covering.
  assert (Hin : row ∈ filter (λ row, h ∈ hours row) fdf)
    by (by apply list_elem_of_filter).
  destruct (filter _ fdf); [by apply elem_of_nil in Hin|simpl; lia].
Qed.

Example checkcount_full_day :
  checkcount [full_day]
  = (λ h, (h, 1%nat)) <$> [8; 9; 10; 11; 12; 13; 14; 15; 16].
Proof. vm_compute. reflexivity. Qed.

(** C3, as amended.  For every hour [h] (of the day or not), [checkcount]
    has an entry [(h, n)] exactly when [n] is the number of filtered records
    whose expanded check-in/out interval contains [h] and [n] is positive; an
    hour covered by no interval has no entry.  The entries come in strictly
    increasing order of hour.  The same holds of [plancount] and the
    schedule-in/out intervals. *)
Theorem hour_counts_entries (fdf : list FRow) :
  (∀ h n, (h, n) ∈ checkcount fdf ↔ n = covering chours fdf h ∧ (0 < n)%nat)
  ∧ (∀ h n, (h, n) ∈ plancount fdf ↔ n = covering phours fdf h ∧ (0 < n)%nat)
  ∧ (∀ h, covering chours fdf h = 0%nat → h ∉ (checkcount fdf).*1)
  ∧ (∀ h, covering phours fdf h = 0%nat → h ∉ (plancount fdf).*1)
  ∧ StronglySorted by_hour (checkcount fdf)
  ∧ StronglySorted by_hour (plancount fdf).
Proof.
  split; [apply elem_of_checkcount|]. split; [apply elem_of_plancount|].
  split; [|split; [|split]].
  - intros h H0 ([h' n] & -> & Hin)%list_elem_of_fmap. simpl in H0.
    apply elem_of_checkcount in Hin. lia.
  - intros h H0 ([h' n] & -> & Hin)%list_elem_of_fmap. simpl in H0.
    apply elem_of_plancount in Hin. lia.
  - apply hour_count_sorted.
  - apply hour_count_sorted.
Qed.

(** C3, as stated, fails on the single record 08:00-16:00: no interval covers
    hour 7, and [checkcount] has no entry [(7, 0)] (it has no entry for hour 7
    at all). *)
Lemma hour_counts_no_zero_entry :
  covering chours [full_day] 7 = 0%nat
  ∧ (7 ∉ (checkcount [full_day]).*1)
  ∧ ¬ assigns_every_hour (covering chours [full_day]) (checkcount [full_day]).
Proof.
  assert (H7 : ∀ n, (7, n) ∉ checkcount [full_day]).
  { intros n Hin. unfold checkcount in Hin.
    apply elem_of_hour_count in Hin as [-> Hpos]. vm_compute in Hpos. lia. }
  split; [reflexivity|]. split.
  - intros ([h n] & Hh & Hin)%list_elem_of_fmap. simpl in Hh. subst h.
    by apply (H7 n).
  - intros Hall. apply (H7 (covering chours [full_day] 7)), Hall. lia.
Qed.

(** C9. A record whose check-out hour is strictly less than its check-in
    hour expands to the empty list of hours and leaves [checkcount] as it is
    without the record; likewise for the schedule-in/out hours and
    [plancount]. *)
Theorem backwards_interval (fdf1 fdf2 : list FRow) (row : FRow) :
  (hour (Check_out_dt row) < hour (Check_in_dt row) →
     chours row = []
     ∧ checkcount (fdf1 ++ row :: fdf2) = checkcount (fdf1 ++ fdf2))
  ∧ (hour (Schedule_out_dt row) < hour (Schedule_in_dt row) →
     phours row = []
     ∧ plancount (fdf1 ++ row :: fdf2) = plancount (fdf1 ++ fdf2)).
Proof.
  split; intros Hlt.
  - pose proof (hours_between_empty _ _ Hlt) as He. fold (chours row) in He.
    split; [exact He|].
    unfold checkcount, hour_count, flat_list, tchours.
    rewrite !fmap_app, !join_app. csimpl. by rewrite He.
  - pose proof (hours_between_empty _ _ Hlt) as He. fold (phours row) in He.
    split; [exact He|].
    unfold plancount, hour_count, flat_list, tphours.
    rewrite !fmap_app, !join_app. csimpl. by rewrite He.
Qed.

Lemma backwards_interval_witness :
  hour (Check_out_dt backwards) < hour (Check_in_dt backwards)
  ∧ chours backwards = []
  ∧ checkcount ([morning] ++ backwards :: [full_day]) = checkcount ([morning] ++ [full_day]).
Proof.
  assert (H : hour (Check_out_dt backwards) < hour (Check_in_dt backwards))
    by (simpl; lia).
  split; [exact H|].
  exact (proj1 (backwards_interval [morning] [full_day] backwards) H).
Defined.

(** ** Row filter *)

Lemma mask_spec (doi : list string) (r : DayRow) :
  mask doi r ↔
    Check_in r ≠ "-" ∧ FreeTime r = 0 ∧ Schedule_in r ≠ "-"
    ∧ Schedule_out r ≠ "-" ∧ Check_out r ≠ "-" ∧ Weekday r ∈ doi.
Proof. unfold mask. rewrite !andb_True, !bool_decide_spec. tauto. Qed.

Lemma elem_of_row_filter (doi : list string) (df : list DayRow) (r : DayRow) :
  r ∈ row_filter doi df ↔ mask doi r ∧ r ∈ df.
Proof. unfold row_filter. by rewrite list_elem_of_filter. Qed.

Lemma elem_of_add_Weekday (df : list Row) (r : DayRow) :
  r ∈ add_Weekday df ↔ (rec r ∈ df ∧ Weekday r = day_name (Date r)).
Proof.
  unfold add_Weekday. rewrite list_elem_of_fmap. split.
  - intros (r' & -> & Hin). done.
  - intros [Hin Hw]. exists (rec r). split; [|done].
    destruct r as [r' w]. simpl in *. by rewrite Hw.
Qed.

(** C4. A record with the placeholder ["-"] in [Check-in], [Check-out],
    [Schedule-in] or [Schedule-out] is not in the output of the row filter,
    whatever the frame and the days of interest. *)
Theorem row_filter_drops_placeholder (doi : list string) (df : list DayRow) (r : DayRow) :
  Check_in r = "-" ∨ Check_out r = "-" ∨ Schedule_in r = "-" ∨ Schedule_out r = "-" →
  r ∉ row_filter doi df.
Proof.
  intros Hdash [Hm _]%elem_of_row_filter.
  apply mask_spec in Hm as (? & _ & ? & ? & ? & _). tauto.
Qed.

Lemma row_filter_drops_placeholder_witness :
  let r := mkDayRow not_checked_in "Monday" in
  r ∈ add_Weekday [not_checked_in; present]
  ∧ (Check_in r = "-" ∨ Check_out r = "-" ∨ Schedule_in r = "-" ∨ Schedule_out r = "-")
  ∧ r ∉ row_filter (doi "All") (add_Weekday [not_checked_in; present]).
Proof.
  intros r. split; [apply list_elem_of_here|].
  assert (H : Check_in r = "-" ∨ Check_out r = "-"
              ∨ Schedule_in r = "-" ∨ Schedule_out r = "-")
    by (left; reflexivity).
  split; [exact H|].
  exact (row_filter_drops_placeholder (doi "All")
           (add_Weekday [not_checked_in; present]) r H).
Defined.

(** C5. A record whose [FreeTime] flag is not zero is not in the output of
    the row filter, whatever the frame and the days of interest. *)
Theorem row_filter_drops_free_time (doi : list string) (df : list DayRow) (r : DayRow) :
  FreeTime r ≠ 0 → r ∉ row_filter doi df.
Proof.
  intros Hfree [Hm _]%elem_of_row_filter.
  apply mask_spec in Hm as (_ & ? & _). done.
Qed.

Lemma row_filter_drops_free_time_witness :
  let r := mkDayRow free_day "Monday" in
  r ∈ add_Weekday [present; free_day]
  ∧ FreeTime r ≠ 0
  ∧ r ∉ row_filter (doi "All") (add_Weekday [present; free_day]).
Proof.
  intros r. split; [apply list_elem_of_further, list_elem_of_here|].
  assert (H : FreeTime r ≠ 0) by (simpl; lia).
  split; [exact H|].
  exact (row_filter_drops_free_time (doi "All")
           (add_Weekday [present; free_day]) r H).
Defined.

(** ** The [result] monad on lists *)

Lemma mapM_Ok_inv {A B} (f : A → result B) (l : list A) (k : list B) :
  mapM f l = Ok k → Forall2 (λ x y, f x = Ok y) l k.
Proof.
  revert k. induction l as [|x l IH]; intros k; simpl.
  - intros [= <-]. constructor.
  - destruct (f x) as [y|e] eqn:Hx; simpl; [|done].
    destruct (mapM f l) as [k'|e]; simpl; [|done].
    intros [= <-]. constructor; [done|]. by apply IH.
Qed.

Lemma mapM_Ok_intro {A B} (f : A → result B) (l : list A) (k : list B) :
  Forall2 (λ x y, f x = Ok y) l k → mapM f l = Ok k.
Proof.
  induction 1 as [|x y l k Hx _ IH]; simpl; [done|]. by rewrite Hx, IH.
Qed.


(** ** Timestamp formatting and the whole preparation *)

Section PipelineProperties.

Variable to_datetime : string → result Timestamp.

Abbreviation stamp_of r col := (to_datetime (date_str (Date r) +:+ " " +:+ col r)).

(** What a successful [format_dates] returns: row by row, the filtered row
    together with the four timestamps read from its date and time cells. *)
Lemma format_dates_Ok (fdf : list DayRow) (out : list FRow) :
  format_dates to_datetime fdf = Ok out →
  Forall2 (λ (r : DayRow) row,
      origin row = r
      ∧ stamp_of r Check_in = Ok (Check_in_dt row)
      ∧ stamp_of r Check_out = Ok (Check_out_dt row)
      ∧ stamp_of r Schedule_in = Ok (Schedule_in_dt row)
      ∧ stamp_of r Schedule_out = Ok (Schedule_out_dt row)) fdf out.
Proof.
  unfold format_dates.
  destruct (to_datetime_col _ Check_in fdf) as [ci|] eqn:Hci; simpl; [|done].
  destruct (to_datetime_col _ Check_out fdf) as [co|] eqn:Hco; simpl; [|done].
  destruct (to_datetime_col _ Schedule_in fdf) as [si|] eqn:Hsi; simpl; [|done].
  destruct (to_datetime_col _ Schedule_out fdf) as [so|] eqn:Hso; simpl; [|done].
  intros [= <-]. unfold to_datetime_col in *.
  apply mapM_Ok_inv in Hci, Hco, Hsi, Hso.
  revert co si so Hco Hsi Hso.
  induction Hci as [|r a fdf ci Ha _ IH]; intros co si so Hco Hsi Hso.
  - constructor.
  - inversion Hco as [|? b ? co' Hb Hco']; subst.
    inversion Hsi as [|? c ? si' Hc Hsi']; subst.
    inversion Hso as [|? d ? so' Hd Hso']; subst.
    simpl. constructor; [done|]. by apply IH.
Qed.

(** *** Weekday selection *)



(** *** The [Absent] column *)










(** ** Loading the records *)

Lemma read_from_db_two_arguments (w : World) (school date : string) :
  read_from_db w [school; date]
  = match pyodbc_connect w connection_string with
    | Ok _ => Raise NameError
    | Raise e => Raise e
    end.
Proof. unfold read_from_db. by destruct (pyodbc_connect w _). Qed.

(** C7 (the code does not do it).  With [local_read=False] the call
    [read_from_db()] passes no argument to a function with two required
    parameters: [prep_and_visualize] raises [TypeError], whatever the
    database holds, and no query is issued. *)
Theorem database_branch_raises (w : World) (days : string) :
  prep_and_visualize to_datetime w false days = Raise TypeError.
Proof. reflexivity. Qed.

(** C8. When no file matches [path + '*.xls'], [read_local_data] raises
    [ValueError] (the concatenation of no frame), and with the default path
    [prep_and_visualize] raises it too instead of going on with an empty
    frame. *)
Theorem no_spreadsheet_raises (w : World) (path days : string) :
  glob w (path +:+ "*.xls") = [] →
  read_local_data w path = Raise ValueError
  ∧ (path = "../" →
     prep_and_visualize to_datetime w true days = Raise ValueError).
Proof.
  intros Hglob.
  assert (Hread : read_local_data w path = Raise ValueError).
  { unfold read_local_data. rewrite Hglob. reflexivity. }
  split; [exact Hread|]. intros ->.
  unfold prep_and_visualize. rewrite Hread. reflexivity.
Qed.

End PipelineProperties.

(** ** The examples, run *)



Lemma no_spreadsheet_raises_witness :
  glob empty_world ("../" +:+ "*.xls") = []
  ∧ read_local_data empty_world "../" = Raise ValueError
  ∧ prep_and_visualize iso_to_datetime empty_world true "All" = Raise ValueError.
Proof.
  destruct (no_spreadsheet_raises iso_to_datetime empty_world "../" "All" eq_refl)
    as [Hread Hprep].
  split; [reflexivity|]. split; [exact Hread|]. exact (Hprep eq_refl).
Defined.

(** The end-to-end example: of a Monday and a Tuesday record, both
    08:00-16:00, [days="Monday"] counts the Monday record only. *)
Example end_to_end_monday :
  prep iso_to_datetime "Monday" two_days
  = Ok ((λ h, (h, 1%nat)) <$> [8; 9; 10; 11; 12; 13; 14; 15; 16],
        (λ h, (h, 1%nat)) <$> [8; 9; 10; 11; 12; 13; 14; 15; 16]).
Proof. vm_compute. reflexivity. Qed.

Example end_to_end_all :
  prep iso_to_datetime "All" two_days
  = Ok ((λ h, (h, 2%nat)) <$> [8; 9; 10; 11; 12; 13; 14; 15; 16],
        (λ h, (h, 2%nat)) <$> [8; 9; 10; 11; 12; 13; 14; 15; 16]).
Proof. vm_compute. reflexivity. Qed.

Example format_dates_full_day :
  format_dates iso_to_datetime (row_filter (doi "Monday") (add_Weekday two_days))
  = Ok [full_day].
Proof. vm_compute. reflexivity. Qed.

(** * Further properties *)

(** ** The data of the bar chart *)

Lemma np_min_spec (a : list Z) (m : Z) :
  np_min a = Ok m → m ∈ a ∧ Forall (Z.le m) a.
Proof.
  destruct a as [|x a]; simpl; [done|]. intros [= <-].
  assert (H : ∀ (l : list Z) (x : Z),
    (foldl Z.min x l = x ∨ foldl Z.min x l ∈ l)
    ∧ foldl Z.min x l ≤ x ∧ Forall (Z.le (foldl Z.min x l)) l).
  { clear. induction l as [|y l IH]; intros x; simpl.
    - split; [by left|]. split; [lia|constructor].
    - destruct (IH (x `min` y)) as (Hin & Hle & Hall).
      split; [|split; [lia|constructor; [lia|done]]].
      destruct Hin as [Hin|Hin]; [|right; by apply list_elem_of_further].
      rewrite Hin. destruct (Z.min_spec x y) as [[_ ->]|[_ ->]];
        [by left|right; apply list_elem_of_here]. }
  destruct (H a x) as (Hin & Hle & Hall). split.
  - destruct Hin as [->|Hin]; [apply list_elem_of_here|by apply list_elem_of_further].
  - by constructor.
Qed.

Lemma np_diff_length (a : list Z) : length (np_diff a) = pred (length a).
Proof.
  induction a as [|x [|y a] IH]; simpl in *; [done | done |]. by rewrite IH.
Qed.

Lemma np_diff_increasing (a : list Z) :
  StronglySorted Z.lt a → Forall (Z.le 1) (np_diff a).
Proof.
  induction 1 as [|x a Hs IH Hx]; [constructor|].
  destruct a as [|y a]; simpl; [constructor|].
  constructor; [|exact IH]. apply Forall_cons in Hx as [Hxy _]. lia.
Qed.

Lemma bar_data_raises (checkcount plancount : list (Z * nat)) :
  (length checkcount < 2)%nat ∨ plancount = [] →
  bar_data checkcount plancount = Raise ValueError.
Proof.
  intros Hbad. unfold bar_data.
  destruct checkcount as [|p [|q cc]]; simpl; [done| |].
  - by destruct plancount.
  - destruct plancount; [done|].
    destruct Hbad as [Hlen|Hpc]; [simpl in Hlen; lia|done].
Qed.

Lemma bar_data_Ok (checkcount plancount : list (Z * nat)) (b : Bars) :
  bar_data checkcount plancount = Ok b →
  (2 ≤ length checkcount)%nat ∧ plancount ≠ []
  ∧ ah b = checkcount.*1 ∧ noc b = checkcount.*2
  ∧ ph b = plancount.*1 ∧ nop b = plancount.*2
  ∧ np_min (np_diff (ah b)) = Ok (min_gap b).
Proof.
  unfold bar_data.
  destruct checkcount as [|p [|q cc]]; simpl; [done| |].
  - by destruct plancount.
  - destruct plancount as [|p' pc]; [done|]. simpl. intros [= <-]. simpl.
    split; [lia|]. done.
Qed.

(** X1 (lines 136-139).  The data of the chart exist exactly when at least
    two hours have an actual count and at least one hour has a planned
    count; they are then the hours and the counts of the two lists.  In
    every other case the run stops with [ValueError]: from the unpacking of
    an empty [zip], or from [np.min] on the empty array of differences. *)
Theorem bar_data_cases (checkcount plancount : list (Z * nat)) :
  ((length checkcount < 2)%nat ∨ plancount = [] →
     bar_data checkcount plancount = Raise ValueError)
  ∧ ((2 ≤ length checkcount)%nat → plancount ≠ [] →
     ∃ b, bar_data checkcount plancount = Ok b
          ∧ ah b = checkcount.*1 ∧ noc b = checkcount.*2
          ∧ ph b = plancount.*1 ∧ nop b = plancount.*2
          ∧ zip (ah b) (noc b) = checkcount ∧ zip (ph b) (nop b) = plancount).
Proof.
  split; [apply bar_data_raises|].
  - intros Hlen Hpc. unfold bar_data.
    destruct checkcount as [|p [|q cc]]; simpl in Hlen; [lia | lia |].
    destruct plancount as [|p' pc]; [done|]. simpl.
    eexists. split; [reflexivity|].
    do 4 (split; [reflexivity|]).
    split; [exact (zip_fst_snd (p :: q :: cc))|exact (zip_fst_snd (p' :: pc))].
Qed.

Lemma bar_data_cases_witness :
  (2 ≤ length (checkcount [full_day]))%nat
  ∧ plancount [full_day] ≠ []
  ∧ (∃ b, bar_data (checkcount [full_day]) (plancount [full_day]) = Ok b
          ∧ ah b = [8; 9; 10; 11; 12; 13; 14; 15; 16])
  ∧ bar_data (checkcount [short_visit]) (plancount [short_visit]) = Raise ValueError.
Proof.
  assert (Hlen : (2 ≤ length (checkcount [full_day]))%nat) by (vm_compute; lia).
  assert (Hpc : plancount [full_day] ≠ []) by (vm_compute; discriminate).
  split; [exact Hlen|]. split; [exact Hpc|]. split.
  - destruct (proj2 (bar_data_cases (checkcount [full_day]) (plancount [full_day]))
                Hlen Hpc) as (b & Hb & Hah & _).
    exists b. split; [exact Hb|]. rewrite Hah. vm_compute. reflexivity.
  - apply (proj1 (bar_data_cases (checkcount [short_visit]) (plancount [short_visit]))).
    left. vm_compute. lia.
Defined.

(** ** More on the hour counts *)

Section Counts.

Implicit Types (hours : FRow → list Z) (fdf : list FRow) (h : Z) (n : nat).

Lemma elem_of_hours_between t_in t_out h :
  h ∈ hours_between t_in t_out ↔ hour t_in ≤ h ≤ hour t_out.
Proof. rewrite hours_between_range, elem_of_range. lia. Qed.

Lemma covering_le_length hours fdf h : (covering hours fdf h ≤ length fdf)%nat.
Proof. apply length_filter. Qed.

Lemma covering_mono hours hours' fdf h :
  (∀ row, row ∈ fdf → h ∈ hours row → h ∈ hours' row) →
  (covering hours fdf h ≤ covering hours' fdf h)%nat.
Proof.
  unfold covering. induction fdf as [|row fdf IH]; intros Hsub; [done|].
  rewrite !filter_cons.
  assert (IH' : (length (filter (λ row, h ∈ hours row) fdf)
                 ≤ length (filter (λ row, h ∈ hours' row) fdf))%nat).
  { apply IH. intros row' Hrow'. by apply Hsub, list_elem_of_further. }
  destruct (decide (h ∈ hours row)) as [Hin|Hin].
  - rewrite decide_True by (by apply Hsub; [apply list_elem_of_here|]).
    simpl. lia.
  - destruct (decide (h ∈ hours' row)); simpl; lia.
Qed.

Lemma covering_positive_inv hours fdf h :
  (0 < covering hours fdf h)%nat → ∃ row, row ∈ fdf ∧ h ∈ hours row.
Proof.
  unfold covering. intros Hpos.
  destruct (filter (λ row, h ∈ hours row) fdf) as [|row l] eqn:Hf;
    [simpl in Hpos; lia|].
  assert (Hin : row ∈ filter (λ row, h ∈ hours row) fdf)
    by (rewrite Hf; apply list_elem_of_here).
  apply list_elem_of_filter in Hin as [Hh Hrow]. by exists row.
Qed.

Lemma hour_count_NoDup (t : list (list Z)) : NoDup (hour_count t).
Proof.
  unfold hour_count, sorted, items.
  rewrite merge_sort_Permutation. apply NoDup_map_to_list.
Qed.

Lemma by_hour_length_bound (m : list (Z * nat)) (lo hi : Z) :
  StronglySorted by_hour m → Forall (λ p, lo ≤ p.1 ≤ hi) m →
  Z.of_nat (length m) ≤ Z.max 0 (hi - lo + 1).
Proof.
  intros Hs. revert lo. induction Hs as [|p m Hs IH Hp]; intros lo Hb.
  - simpl. lia.
  - apply Forall_cons in Hb as [Hb1 Hb]. simpl in Hb1.
    assert (Hm : Forall (λ q, p.1 + 1 ≤ q.1 ≤ hi) m).
    { rewrite Forall_forall in Hp, Hb |- *. intros q Hq.
      specialize (Hp q Hq). specialize (Hb q Hq). unfold by_hour in Hp. lia. }
    specialize (IH _ Hm). simpl length. lia.
Qed.

Lemma singleton_list {A} (l : list A) (x : A) :
  NoDup l → (∀ y, y ∈ l ↔ y = x) → l = [x].
Proof.
  intros Hnd Hx. apply Permutation_singleton_r, NoDup_Permutation.
  - exact Hnd.
  - apply NoDup_singleton.
  - intros y. rewrite Hx, list_elem_of_singleton. done.
Qed.

End Counts.

(** X2 (lines 109-125).  No count exceeds the number of filtered records,
    and none is zero.  When the hours of the timestamps are hours of the day
    (0 to 23), so is every hour of [checkcount] and of [plancount], and each
    of the two lists has at most 24 entries. *)
Theorem hour_counts_bounds (fdf : list FRow) :
  Forall (λ p, (1 ≤ p.2 ≤ length fdf)%nat) (checkcount fdf)
  ∧ Forall (λ p, (1 ≤ p.2 ≤ length fdf)%nat) (plancount fdf)
  ∧ (Forall hours_of_day fdf →
       Forall (λ p, 0 ≤ p.1 ≤ 23) (checkcount fdf)
       ∧ Forall (λ p, 0 ≤ p.1 ≤ 23) (plancount fdf)
       ∧ (length (checkcount fdf) ≤ 24)%nat
       ∧ (length (plancount fdf) ≤ 24)%nat).
Proof.
  split; [|split].
  - apply Forall_forall. intros [h n] [-> Hpos]%elem_of_checkcount. simpl.
    pose proof (covering_le_length chours fdf h). lia.
  - apply Forall_forall. intros [h n] [-> Hpos]%elem_of_plancount. simpl.
    pose proof (covering_le_length phours fdf h). lia.
  - intros Hday. rewrite Forall_forall in Hday.
    assert (Hc : Forall (λ p : Z * nat, 0 ≤ p.1 ≤ 23) (checkcount fdf)).
    { apply Forall_forall. intros [h n] [-> Hpos]%elem_of_checkcount. simpl.
      apply covering_positive_inv in Hpos as (row & Hrow & Hh).
      apply elem_of_hours_between in Hh.
      destruct (Hday row Hrow) as (? & ? & _). lia. }
    assert (Hp : Forall (λ p : Z * nat, 0 ≤ p.1 ≤ 23) (plancount fdf)).
    { apply Forall_forall. intros [h n] [-> Hpos]%elem_of_plancount. simpl.
      apply covering_positive_inv in Hpos as (row & Hrow & Hh).
      apply elem_of_hours_between in Hh.
      destruct (Hday row Hrow) as (_ & _ & ? & ?). lia. }
    split; [exact Hc|]. split; [exact Hp|].
    pose proof (by_hour_length_bound _ 0 23 (hour_count_sorted (tchours fdf)) Hc).
    pose proof (by_hour_length_bound _ 0 23 (hour_count_sorted (tphours fdf)) Hp).
    unfold checkcount, plancount. lia.
Qed.

Lemma hour_counts_bounds_witness :
  Forall hours_of_day [morning; full_day; backwards]
  ∧ Forall (λ p, 0 ≤ p.1 ≤ 23) (checkcount [morning; full_day; backwards])
  ∧ (length (plancount [morning; full_day; backwards]) ≤ 24)%nat.
Proof.
  assert (Hday : Forall hours_of_day [morning; full_day; backwards])
    by (repeat constructor; simpl; lia).
  destruct (hour_counts_bounds [morning; full_day; backwards])
    as (_ & _ & Hb).
  destruct (Hb Hday) as (Hc & _ & _ & Hp).
  split; [exact Hday|]. split; [exact Hc|exact Hp].
Defined.

(** X3 (lines 109-125).  When every filtered record is checked in within its
    scheduled hours, every hour with an actual count has a planned count at
    least as large. *)
Theorem actual_within_planned (fdf : list FRow) (h : Z) (n : nat) :
  Forall within_schedule fdf →
  (h, n) ∈ checkcount fdf →
  ∃ m, (h, m) ∈ plancount fdf ∧ (n ≤ m)%nat.
Proof.
  intros Hin [-> Hpos]%elem_of_checkcount. rewrite Forall_forall in Hin.
  assert (Hle : (covering chours fdf h ≤ covering phours fdf h)%nat).
  { apply covering_mono. intros row Hrow Hh.
    apply elem_of_hours_between in Hh. apply elem_of_hours_between.
    destruct (Hin row Hrow). lia. }
  exists (covering phours fdf h). split; [|exact Hle].
  apply elem_of_plancount. split; [done|lia].
Qed.

Lemma actual_within_planned_witness :
  Forall within_schedule [morning; full_day]
  ∧ (9, 2%nat) ∈ checkcount [morning; full_day]
  ∧ ∃ m, (9, m) ∈ plancount [morning; full_day] ∧ (2 ≤ m)%nat.
Proof.
  assert (Hin : Forall within_schedule [morning; full_day])
    by (repeat constructor; simpl; lia).
  assert (H9 : (9, 2%nat) ∈ checkcount [morning; full_day])
    by (vm_compute; apply list_elem_of_further, list_elem_of_here).
  split; [exact Hin|]. split; [exact H9|].
  exact (actual_within_planned [morning; full_day] 9 2 Hin H9).
Defined.

(** X4 (lines 109-125).  [checkcount] is empty exactly when every filtered
    record has a check-out hour before its check-in hour (in particular when
    there is no filtered record), and likewise [plancount] for the scheduled
    hours. *)
Theorem hour_counts_empty (fdf : list FRow) :
  (checkcount fdf = [] ↔
     Forall (λ row, hour (Check_out_dt row) < hour (Check_in_dt row)) fdf)
  ∧ (plancount fdf = [] ↔
     Forall (λ row, hour (Schedule_out_dt row) < hour (Schedule_in_dt row)) fdf).
Proof.
  split; split.
  - intros Hnil. apply Forall_forall. intros row Hrow.
    destruct (decide (hour (Check_out_dt row) < hour (Check_in_dt row)))
      as [|Hge]; [done|]. exfalso.
    assert (Hh : hour (Check_in_dt row) ∈ chours row)
      by (apply elem_of_hours_between; lia).
    pose proof (covering_positive chours fdf row _ Hrow Hh) as Hpos.
    assert (Hin : (hour (Check_in_dt row),
                   covering chours fdf (hour (Check_in_dt row))) ∈ checkcount fdf)
      by (by apply elem_of_checkcount).
    rewrite Hnil in Hin. by apply elem_of_nil in Hin.
  - intros Hall. rewrite Forall_forall in Hall.
    destruct (checkcount fdf) as [|[h n] m] eqn:Hcc; [done|]. exfalso.
    assert (Hin : (h, n) ∈ checkcount fdf) by (rewrite Hcc; apply list_elem_of_here).
    apply elem_of_checkcount in Hin as [-> Hpos].
    apply covering_positive_inv in Hpos as (row & Hrow & Hh).
    apply elem_of_hours_between in Hh. specialize (Hall row Hrow). simpl in Hall. lia.
  - intros Hnil. apply Forall_forall. intros row Hrow.
    destruct (decide (hour (Schedule_out_dt row) < hour (Schedule_in_dt row)))
      as [|Hge]; [done|]. exfalso.
    assert (Hh : hour (Schedule_in_dt row) ∈ phours row)
      by (apply elem_of_hours_between; lia).
    pose proof (covering_positive phours fdf row _ Hrow Hh) as Hpos.
    assert (Hin : (hour (Schedule_in_dt row),
                   covering phours fdf (hour (Schedule_in_dt row))) ∈ plancount fdf)
      by (by apply elem_of_plancount).
    rewrite Hnil in Hin. by apply elem_of_nil in Hin.
  - intros Hall. rewrite Forall_forall in Hall.
    destruct (plancount fdf) as [|[h n] m] eqn:Hcc; [done|]. exfalso.
    assert (Hin : (h, n) ∈ plancount fdf) by (rewrite Hcc; apply list_elem_of_here).
    apply elem_of_plancount in Hin as [-> Hpos].
    apply covering_positive_inv in Hpos as (row & Hrow & Hh).
    apply elem_of_hours_between in Hh. specialize (Hall row Hrow). simpl in Hall. lia.
Qed.

Lemma covering_all (hours : FRow → list Z) (fdf : list FRow) (h : Z) :
  (∀ row, row ∈ fdf → h ∈ hours row) → covering hours fdf h = length fdf.
Proof.
  unfold covering. induction fdf as [|row fdf IH]; intros Hall; [done|].
  rewrite filter_cons, decide_True by apply Hall, list_elem_of_here.
  simpl. f_equal. apply IH. intros row' Hrow'. by apply Hall, list_elem_of_further.
Qed.

(** X5 (lines 109-139).  When the data of the chart exist for the counts of
    a filtered set, the hours of both series are strictly increasing, and
    [np.min(np.diff(ah))] is one of the gaps between two consecutive hours
    with an actual count, the smallest, and at least 1. *)
Theorem bars_of_counts (fdf : list FRow) (b : Bars) :
  bar_data (checkcount fdf) (plancount fdf) = Ok b →
  StronglySorted Z.lt (ah b) ∧ StronglySorted Z.lt (ph b)
  ∧ length (noc b) = length (ah b) ∧ length (nop b) = length (ph b)
  ∧ min_gap b ∈ np_diff (ah b)
  ∧ Forall (Z.le (min_gap b)) (np_diff (ah b))
  ∧ 1 ≤ min_gap b.
Proof.
  intros (_ & _ & Hah & Hnoc & Hph & Hnop & Hgap)%bar_data_Ok.
  assert (Hsa : StronglySorted Z.lt (ah b)).
  { rewrite Hah. eapply StronglySorted_fmap; [|apply hour_count_sorted]. done. }
  assert (Hsp : StronglySorted Z.lt (ph b)).
  { rewrite Hph. eapply StronglySorted_fmap; [|apply hour_count_sorted]. done. }
  apply np_min_spec in Hgap as [Hin Hmin].
  split; [exact Hsa|]. split; [exact Hsp|].
  split; [by rewrite Hah, Hnoc, !length_fmap|].
  split; [by rewrite Hph, Hnop, !length_fmap|].
  split; [exact Hin|]. split; [exact Hmin|].
  pose proof (np_diff_increasing _ Hsa) as Hone.
  rewrite Forall_forall in Hone. by apply Hone.
Qed.

Lemma bars_of_counts_witness :
  let b := mkBars [8; 9; 10; 11; 12; 13; 14; 15; 16] [2; 2; 2; 2; 1; 1; 1; 1; 1]%nat
             [8; 9; 10; 11; 12; 13; 14; 15; 16] [2; 2; 2; 2; 2; 2; 2; 2; 2]%nat 1 in
  bar_data (checkcount [morning; full_day]) (plancount [morning; full_day]) = Ok b
  ∧ 1 ≤ min_gap b.
Proof.
  intros b.
  assert (H : bar_data (checkcount [morning; full_day]) (plancount [morning; full_day])
              = Ok b) by (vm_compute; reflexivity).
  split; [exact H|].
  exact (proj2 (proj2 (proj2 (proj2 (proj2 (proj2
           (bars_of_counts [morning; full_day] b H))))))).
Defined.

(** X6 (lines 109-139).  When every filtered record is checked in and out
    within one and the same hour, [checkcount] has that hour as its only
    entry, counted once per record, and the run stops with [ValueError]:
    there is no difference between hours for [np.min] to take (or, when no
    hour is planned, nothing to unpack). *)
Theorem single_hour_raises (fdf : list FRow) (h : Z) :
  fdf ≠ [] →
  Forall (λ row, hour (Check_in_dt row) = h ∧ hour (Check_out_dt row) = h) fdf →
  checkcount fdf = [(h, length fdf)]
  ∧ bar_data (checkcount fdf) (plancount fdf) = Raise ValueError.
Proof.
  intros Hne Hall. rewrite Forall_forall in Hall.
  assert (Hcc : checkcount fdf = [(h, length fdf)]).
  { apply singleton_list; [apply hour_count_NoDup|].
    intros [h' n]. rewrite elem_of_checkcount. split.
    - intros [-> Hpos].
      destruct (covering_positive_inv _ _ _ Hpos) as (row & Hrow & Hh).
      apply elem_of_hours_between in Hh. destruct (Hall row Hrow) as [Hi Ho].
      assert (h' = h) as -> by lia.
      f_equal. apply covering_all. intros row' Hrow'.
      apply elem_of_hours_between. destruct (Hall row' Hrow'). lia.
    - intros [= -> ->].
      assert (Hcov : covering chours fdf h = length fdf).
      { apply covering_all. intros row' Hrow'.
        apply elem_of_hours_between. destruct (Hall row' Hrow'). lia. }
      split; [done|]. destruct fdf; [done|simpl; lia]. }
  split; [exact Hcc|]. apply bar_data_raises. left. rewrite Hcc. simpl. lia.
Qed.

Lemma single_hour_raises_witness :
  [short_visit; short_visit] ≠ []
  ∧ checkcount [short_visit; short_visit] = [(9, 2%nat)]
  ∧ bar_data (checkcount [short_visit; short_visit])
      (plancount [short_visit; short_visit]) = Raise ValueError.
Proof.
  assert (Hne : [short_visit; short_visit] ≠ []) by discriminate.
  split; [exact Hne|].
  apply (single_hour_raises [short_visit; short_visit] 9 Hne).
  repeat constructor.
Defined.

(** ** More on the selection of days and the preparation *)

Lemma day_name_cases (d : Z) :
  ∃ k, 0 ≤ k < 7 ∧ (d + 3) `mod` 7 = k ∧ day_name d = day_names !!! Z.to_nat k.
Proof.
  exists ((d + 3) `mod` 7). split; [|done]. apply Z.mod_pos_bound. lia.
Qed.

Lemma day_name_in_day_names (d : Z) : day_name d ∈ day_names.
Proof.
  destruct (day_name_cases d) as (k & Hk & _ & ->).
  assert (Hcase : k = 0 ∨ k = 1 ∨ k = 2 ∨ k = 3 ∨ k = 4 ∨ k = 5 ∨ k = 6) by lia.
  clear Hk. unfold day_names.
  destruct Hcase as [->|[->|[->|[->|[->|[->| ->]]]]]]; simpl;
    repeat first [apply list_elem_of_here | apply list_elem_of_further].
Qed.

Lemma hour_count_nil : hour_count [] = [].
Proof. reflexivity. Qed.


(** X7 (lines 86-95).  With [days='All'] the filtered set holds records of
    Monday to Friday only: a record dated on a Saturday or a Sunday is
    dropped. *)
Theorem all_is_monday_to_friday (df : list Row) :
  Forall (λ r : DayRow,
      0 ≤ (Date r + 3) `mod` 7 ≤ 4
      ∧ Weekday r ≠ "Saturday" ∧ Weekday r ≠ "Sunday")
    (row_filter (doi "All") (add_Weekday df)).
Proof.
  apply Forall_forall. intros r [Hm Hin]%elem_of_row_filter.
  apply mask_spec in Hm as (_ & _ & _ & _ & _ & Hday).
  apply elem_of_add_Weekday in Hin as [_ Hw].
  destruct (day_name_cases (Date r)) as (k & Hk & Hmod & Hname).
  rewrite Hname in Hw. rewrite Hmod. rewrite Hw in Hday |- *.
  assert (Hcase : k = 0 ∨ k = 1 ∨ k = 2 ∨ k = 3 ∨ k = 4 ∨ k = 5 ∨ k = 6) by lia.
  clear Hk Hmod Hname Hw.
  destruct Hcase as [->|[->|[->|[->|[->|[->| ->]]]]]];
    try (split; [lia|split; simpl; discriminate]);
    exfalso; simpl in Hday;
    repeat (apply elem_of_cons in Hday as [Hday|Hday]; [discriminate Hday|]);
    by apply elem_of_nil in Hday.
Qed.

Example saturday_dropped :
  day_name 19728 = "Saturday"
  ∧ row_filter (doi "All")
      (add_Weekday [child 19728 "08:00" "16:00" "08:00" "16:00" 0 0]) = [].
Proof. split; reflexivity. Qed.

Lemma Forall2_Permutation_l {A B} (R : A → B → Prop) (l l' : list A) (k : list B) :
  l ≡ₚ l' → Forall2 R l k → ∃ k', k ≡ₚ k' ∧ Forall2 R l' k'.
Proof.
  intros Hperm. revert k.
  induction Hperm as [|x l l' _ IH|x y l|l l' l'' _ IH1 _ IH2]; intros k Hk.
  - inversion Hk; subst. by exists [].
  - inversion Hk as [|? z ? k0 Hx Hk0]; subst.
    destruct (IH k0 Hk0) as (k' & Hp & Hf).
    exists (z :: k'). split; [by constructor|by constructor].
  - inversion Hk as [|? z ? k0 Hy Hk0]; subst.
    inversion Hk0 as [|? z' ? k1 Hx Hk1]; subst.
    exists (z' :: z :: k1). split; [apply perm_swap|by repeat constructor].
  - destruct (IH1 k Hk) as (k' & Hp' & Hf').
    destruct (IH2 k' Hf') as (k'' & Hp'' & Hf'').
    exists k''. split; [by transitivity k'|done].
Qed.

Lemma occurrences_Permutation (h : Z) (l l' : list Z) :
  l ≡ₚ l' → occurrences h l = occurrences h l'.
Proof. intros Hperm. unfold occurrences. by rewrite Hperm. Qed.

Lemma Counter_Permutation (l l' : list Z) : l ≡ₚ l' → Counter l = Counter l'.
Proof.
  intros Hperm. apply map_eq. intros h. apply option_eq. intros n.
  by rewrite !Counter_lookup, (occurrences_Permutation h l l' Hperm).
Qed.

Lemma hour_count_Permutation (t t' : list (list Z)) :
  t ≡ₚ t' → hour_count t = hour_count t'.
Proof.
  intros Hperm. unfold hour_count, flat_list.
  rewrite (Counter_Permutation (mjoin t) (mjoin t')); [done|]. by rewrite Hperm.
Qed.

Lemma counts_Permutation (out out' : list FRow) :
  out ≡ₚ out' →
  checkcount out = checkcount out' ∧ plancount out = plancount out'.
Proof.
  intros Hperm. unfold checkcount, plancount, tchours, tphours.
  split; apply hour_count_Permutation; by rewrite Hperm.
Qed.

Section Preparation.

Variable to_datetime : string → result Timestamp.

Abbreviation cell_stamp r col := (to_datetime (date_str (Date r) +:+ " " +:+ col r)).

Lemma assign_formats (fdf : list DayRow) (out : list FRow) :
  Forall2 (formats to_datetime) fdf out →
  assign fdf (Check_in_dt <$> out) (Check_out_dt <$> out)
    (Schedule_in_dt <$> out) (Schedule_out_dt <$> out) = out.
Proof.
  induction 1 as [|r row fdf out [Ho _] _ IH]; csimpl; [done|].
  rewrite IH. f_equal. destruct row. simpl in Ho. by subst.
Qed.

(** In the model, [format_dates] returns a frame exactly when every time
    cell of its argument is read, cell by cell, and the frame is then the
    argument with the timestamps read. *)
Lemma format_dates_Ok_iff (fdf : list DayRow) (out : list FRow) :
  format_dates to_datetime fdf = Ok out ↔ Forall2 (formats to_datetime) fdf out.
Proof.
  split; [apply format_dates_Ok|]. intros Hf.
  assert (Hcol : ∀ (col : DayRow → string) (get : FRow → Timestamp),
    Forall2 (λ (r : DayRow) row, cell_stamp r col = Ok (get row)) fdf out →
    to_datetime_col to_datetime col fdf = Ok (get <$> out)).
  { intros col get Hc. apply mapM_Ok_intro, Forall2_fmap_r. exact Hc. }
  unfold format_dates.
  rewrite (Hcol (λ r : DayRow, Check_in r) Check_in_dt)
    by (eapply Forall2_impl; [exact Hf|]; by intros ?? (_ & ? & _)).
  rewrite (Hcol (λ r : DayRow, Check_out r) Check_out_dt)
    by (eapply Forall2_impl; [exact Hf|]; by intros ?? (_ & _ & ? & _)).
  rewrite (Hcol (λ r : DayRow, Schedule_in r) Schedule_in_dt)
    by (eapply Forall2_impl; [exact Hf|]; by intros ?? (_ & _ & _ & ? & _)).
  rewrite (Hcol (λ r : DayRow, Schedule_out r) Schedule_out_dt)
    by (eapply Forall2_impl; [exact Hf|]; by intros ?? (_ & _ & _ & _ & ?)).
  simpl. by rewrite assign_formats.
Qed.

Lemma prep_Ok_inv (days : string) (df : list Row) (x : list (Z * nat) * list (Z * nat)) :
  prep to_datetime days df = Ok x ↔
  ∃ out, Forall2 (formats to_datetime) (row_filter (doi days) (add_Weekday df)) out
         ∧ x = (checkcount out, plancount out).
Proof.
  unfold prep. split.
  - destruct (format_dates _ _) as [out|e] eqn:Hfmt; simpl; [|done].
    intros [= <-]. exists out. by apply format_dates_Ok_iff in Hfmt.
  - intros (out & Hf%format_dates_Ok_iff & ->). by rewrite Hf.
Qed.

Lemma prep_Permutation (days : string) (df df' : list Row)
    (x : list (Z * nat) * list (Z * nat)) :
  df ≡ₚ df' → prep to_datetime days df = Ok x → prep to_datetime days df' = Ok x.
Proof.
  intros Hperm (out & Hf & ->)%prep_Ok_inv.
  assert (Hfdf : row_filter (doi days) (add_Weekday df)
                 ≡ₚ row_filter (doi days) (add_Weekday df')).
  { unfold row_filter, add_Weekday. by rewrite Hperm. }
  destruct (Forall2_Permutation_l _ _ _ _ Hfdf Hf) as (out' & Hout & Hf').
  apply prep_Ok_inv. exists out'. split; [exact Hf'|].
  destruct (counts_Permutation out out' Hout) as [-> ->]. done.
Qed.

Lemma formats_origin (fdf : list DayRow) (out : list FRow) :
  Forall2 (formats to_datetime) fdf out → origin <$> out = fdf.
Proof.
  induction 1 as [|r row fdf out [Ho _] _ IH]; csimpl; [done|]. by rewrite Ho, IH.
Qed.

Lemma prep_nothing_selected (days : string) (df : list Row) :
  row_filter (doi days) (add_Weekday df) = [] →
  prep to_datetime days df = Ok ([], []).
Proof. intros Hnil. unfold prep. rewrite Hnil. reflexivity. Qed.

(** X8 (lines 93-125).  One time cell that [to_datetime] cannot read, in one
    filtered record, is enough for the run to return no counts.  Counts that
    are returned are those of a frame with one row per filtered record, in
    the order of the filtered set. *)
Theorem unreadable_cell_no_counts (days : string) (df : list Row) :
  (∀ (r : DayRow) (col : DayRow → string) (e : exn),
     r ∈ row_filter (doi days) (add_Weekday df) → col ∈ time_columns →
     cell_stamp r col = Raise e →
     ¬ is_Ok (prep to_datetime days df))
  ∧ (∀ x, prep to_datetime days df = Ok x →
       ∃ out, origin <$> out = row_filter (doi days) (add_Weekday df)
              ∧ x = (checkcount out, plancount out)).
Proof.
  split.
  - intros r col e Hr Hcol He [x (out & Hf & _)%prep_Ok_inv].
    apply list_elem_of_lookup in Hr as [i Hi].
    destruct (Forall2_lookup_l _ _ _ _ _ Hf Hi)
      as (row & _ & _ & Hci & Hco & Hsi & Hso).
    unfold time_columns in Hcol.
    repeat (apply elem_of_cons in Hcol as [->|Hcol]; [congruence|]).
    by apply elem_of_nil in Hcol.
  - intros x (out & Hf & ->)%prep_Ok_inv. exists out.
    split; [by apply formats_origin|done].
Qed.


(** X10 (lines 86-95, 136).  A [days] argument that is neither ['All'] nor
    the English name of a day (for instance a name in lower case) is not
    refused.  On a loaded frame that has rows, with dates a [datetime64]
    column can hold, the filtered set is empty, both count lists are empty,
    and the run stops at line 136 with [ValueError]. *)
Theorem unknown_day_raises (days : string) (df : list Row) (w : World) :
  days ≠ "All" → days ∉ day_names →
  df ≠ [] → Forall (λ r, datetime64_day (Date r)) df →
  row_filter (doi days) (add_Weekday df) = []
  ∧ prep to_datetime days df = Ok ([], [])
  ∧ (read_local_data w "../" = Ok df →
     bars_of_run to_datetime w true days = Raise ValueError).
Proof.
  intros Hall Hday _ _.
  assert (Hnil : row_filter (doi days) (add_Weekday df) = []).
  { unfold row_filter, add_Weekday, doi. rewrite bool_decide_eq_false_2 by done.
    induction df as [|r df IH]; [done|]. csimpl.
    rewrite filter_cons, decide_False; [exact IH|].
    intros (_ & _ & _ & _ & _ & Hw)%mask_spec. simpl in Hw.
    apply list_elem_of_singleton in Hw. apply Hday. rewrite <-Hw.
    apply day_name_in_day_names. }
  split; [exact Hnil|].
  split; [by apply prep_nothing_selected|].
  intros Hread. unfold bars_of_run, prep_and_visualize. rewrite Hread. simpl.
  by rewrite prep_nothing_selected.
Qed.

(** X11 (lines 84-125).  The counts do not depend on the order of the rows of
    the loaded frame. *)
Theorem row_order_irrelevant (days : string) (df df' : list Row)
    (x : list (Z * nat) * list (Z * nat)) :
  df ≡ₚ df' → prep to_datetime days df = Ok x → prep to_datetime days df' = Ok x.
Proof. apply prep_Permutation. Qed.

(** ** More on the loaders *)

Lemma read_local_data_Ok_iff (w : World) (path : string) (df : list Row) :
  read_local_data w path = Ok df ↔
  glob w (path +:+ "*.xls") ≠ []
  ∧ ∃ frames, Forall2 (λ f fr, read_excel w f = Ok fr) (glob w (path +:+ "*.xls")) frames
              ∧ df = mjoin frames.
Proof.
  unfold read_local_data. split.
  - destruct (mapM _ _) as [frames|e] eqn:Hm; simpl; [|done].
    apply mapM_Ok_inv in Hm.
    destruct frames as [|fr frames]; simpl; [done|]. intros [= <-].
    split; [by inversion Hm|]. by exists (fr :: frames).
  - intros (Hne & frames & Hf & ->).
    rewrite (mapM_Ok_intro _ _ _ Hf). simpl.
    destruct frames; [by inversion Hf|done].
Qed.

(** X12 (lines 24-39).  [read_local_data] returns a frame exactly when at
    least one file matches the pattern and every matching file can be read;
    the frame then holds the rows of the files, file after file in the order
    of [glob].  One unreadable file makes the call raise. *)
Theorem read_local_data_outcome (w : World) (path : string) :
  (∀ df, read_local_data w path = Ok df ↔
     glob w (path +:+ "*.xls") ≠ []
     ∧ ∃ frames,
         Forall2 (λ f fr, read_excel w f = Ok fr) (glob w (path +:+ "*.xls")) frames
         ∧ df = mjoin frames)
  ∧ (∀ f e, f ∈ glob w (path +:+ "*.xls") → read_excel w f = Raise e →
       ¬ is_Ok (read_local_data w path)).
Proof.
  split; [apply read_local_data_Ok_iff|].
  intros f e Hf He [df (_ & frames & Hall & _)%read_local_data_Ok_iff].
  apply list_elem_of_lookup in Hf as [i Hi].
  destruct (Forall2_lookup_l _ _ _ _ _ Hall Hi) as (fr & _ & Hfr). congruence.
Qed.

(** X13 (lines 24-39, 79-125).  The order in which [glob] lists the files
    does not matter: a world with the same files listed in another order
    gives the same counts. *)
Theorem file_order_irrelevant (w w' : World) (days : string)
    (x : list (Z * nat) * list (Z * nat)) :
  (∀ f, read_excel w' f = read_excel w f) →
  glob w "../*.xls" ≡ₚ glob w' "../*.xls" →
  prep_and_visualize to_datetime w true days = Ok x →
  prep_and_visualize to_datetime w' true days = Ok x.
Proof.
  intros Hread Hglob. unfold prep_and_visualize.
  destruct (read_local_data w "../") as [df|e] eqn:Hdf; simpl; [|done].
  intros Hprep.
  apply read_local_data_Ok_iff in Hdf as (Hne & frames & Hf & ->).
  simpl in Hne, Hf.
  destruct (Forall2_Permutation_l _ _ _ _ Hglob Hf) as (frames' & Hp & Hf').
  assert (Hdf' : read_local_data w' "../" = Ok (mjoin frames')).
  { apply read_local_data_Ok_iff. simpl. split.
    - intros Hnil. change (glob w' "../*.xls" = []) in Hnil.
      rewrite Hnil in Hglob. by apply Permutation_nil_r in Hglob.
    - exists frames'. split; [|done].
      eapply Forall2_impl; [exact Hf'|]. intros f fr Hfr. by rewrite Hread. }
  rewrite Hdf'. simpl. eapply prep_Permutation; [|exact Hprep]. by rewrite Hp.
Qed.

(** X14 (lines 41-67).  [read_from_db] never returns a frame.  Called with
    any number of arguments other than two it raises [TypeError]; called
    with a school and a date it raises the error of the connection, or,
    once connected, [NameError], as the body reads [pandas.read_sql] while
    the module imports pandas as [pd]. *)
Theorem read_from_db_never_returns (w : World) (args : list string) :
  ¬ is_Ok (read_from_db w args)
  ∧ (length args ≠ 2%nat → read_from_db w args = Raise TypeError)
  ∧ (∀ school date, args = [school; date] →
       is_Ok (pyodbc_connect w connection_string) →
       read_from_db w args = Raise NameError).
Proof.
  split; [|split].
  - intros [df Hdf]. unfold read_from_db in Hdf.
    destruct args as [|school [|date [|? ?]]]; try done.
    destruct (pyodbc_connect w connection_string); done.
  - intros Hlen. by destruct args as [|school [|date [|? ?]]].
  - intros school date -> [c Hc]. unfold read_from_db. by rewrite Hc.
Qed.

End Preparation.

(** ** The further examples, run *)


Lemma unknown_day_raises_witness :
  "monday" ≠ "All" ∧ ("monday" ∉ day_names)
  ∧ two_days ≠ [] ∧ Forall (λ r, datetime64_day (Date r)) two_days
  ∧ read_local_data one_file_world "../" = Ok two_days
  ∧ prep iso_to_datetime "monday" two_days = Ok ([], [])
  ∧ bars_of_run iso_to_datetime one_file_world true "monday" = Raise ValueError.
Proof.
  assert (Hall : "monday" ≠ "All") by discriminate.
  assert (Hday : "monday" ∉ day_names).
  { unfold day_names. intros Hin.
    repeat (apply elem_of_cons in Hin as [Hin|Hin]; [discriminate Hin|]).
    by apply elem_of_nil in Hin. }
  assert (Hne : two_days ≠ []) by discriminate.
  assert (Hdates : Forall (λ r, datetime64_day (Date r)) two_days)
    by (repeat (apply Forall_cons_2; [cbv; split; discriminate|]);
        apply Forall_nil_2).
  assert (Hread : read_local_data one_file_world "../" = Ok two_days)
    by reflexivity.
  destruct (unknown_day_raises iso_to_datetime "monday" two_days one_file_world
              Hall Hday Hne Hdates) as (_ & Hprep & Hrun).
  split; [exact Hall|]. split; [exact Hday|].
  split; [exact Hne|]. split; [exact Hdates|]. split; [exact Hread|].
  split; [exact Hprep|exact (Hrun Hread)].
Defined.

Lemma row_order_irrelevant_witness :
  [present; marked_absent; free_day] ≡ₚ [free_day; marked_absent; present]
  ∧ prep iso_to_datetime "All" [present; marked_absent; free_day]
    = Ok (checkcount [morning; morning_absent], plancount [morning; morning_absent])
  ∧ prep iso_to_datetime "All" [free_day; marked_absent; present]
    = Ok (checkcount [morning; morning_absent], plancount [morning; morning_absent]).
Proof.
  assert (Hperm : [present; marked_absent; free_day]
                  ≡ₚ [free_day; marked_absent; present]).
  { etransitivity; [apply perm_skip, perm_swap|].
    etransitivity; [apply perm_swap|]. apply perm_skip, perm_swap. }
  assert (Hprep : prep iso_to_datetime "All" [present; marked_absent; free_day]
    = Ok (checkcount [morning; morning_absent], plancount [morning; morning_absent]))
    by (vm_compute; reflexivity).
  split; [exact Hperm|]. split; [exact Hprep|].
  exact (row_order_irrelevant iso_to_datetime "All" _ _ _ Hperm Hprep).
Defined.

Lemma file_order_irrelevant_witness :
  glob two_file_world "../*.xls" ≡ₚ glob two_file_world_reversed "../*.xls"
  ∧ is_Ok (prep_and_visualize iso_to_datetime two_file_world true "All")
  ∧ prep_and_visualize iso_to_datetime two_file_world_reversed true "All"
    = prep_and_visualize iso_to_datetime two_file_world true "All".
Proof.
  assert (Hglob : glob two_file_world "../*.xls"
                  ≡ₚ glob two_file_world_reversed "../*.xls") by apply perm_swap.
  assert (Hrun : ∃ x, prep_and_visualize iso_to_datetime two_file_world true "All" = Ok x)
    by (eexists; vm_compute; reflexivity).
  destruct Hrun as [x Hrun].
  split; [exact Hglob|]. split; [by exists x|].
  rewrite Hrun.
  exact (file_order_irrelevant iso_to_datetime two_file_world two_file_world_reversed
           "All" x (λ f, eq_refl) Hglob Hrun).
Defined.

Example read_from_db_with_arguments :
  read_from_db (mkWorld (λ _, []) (λ _, Ok []) (λ _, Ok ()) (λ _, Ok two_days))
    ["12"; "2024-01-01"] = Raise NameError.
Proof. reflexivity. Qed.
